(** * MADOLA web launcher: [web/serve.py]

    A shallow embedding of the 28-line launch script that serves the MADOLA
    web application over HTTP, and the properties of its observable
    behaviour: what it prints, where it changes directory to, what it binds,
    how it reacts to an interrupt and to a startup fault.

    The script is straight-line code around calls into the Python standard
    library.  It is embedded statement by statement ([main]) in a small
    state-and-exception monad.  The library operations it calls and the
    interpreter that runs it are not part of the repository: they are
    modelled as operations on a process state that append to a chronological
    trace, and which of them raises, and what, is chosen by the surrounding
    world. *)

From Stdlib Require Import ZArith List String Ascii Bool Lia DecimalString.
From Stdlib Require Import Strings.Byte.
Import ListNotations.

Local Open Scope list_scope.
Local Open Scope string_scope.
Local Open Scope Z_scope.

(** ** Python exceptions and the process status *)

Module Py.

(** The exception classes that matter to the script.  [KeyboardInterrupt]
    and [SystemExit] derive from [BaseException]; [OSError] (address in
    use, permission denied, ...) and every other error derive from
    [Exception]. *)
Inductive exn : Type :=
| KeyboardInterrupt
| SystemExit (code : Z)
| OSError (errno : Z)
| Exception (cls : string).

(** An error in the ordinary sense: an exception that is neither the user's
    interrupt nor a request to exit. *)
Definition is_error (e : exn) : bool :=
  match e with
  | OSError _ | Exception _ => true
  | KeyboardInterrupt | SystemExit _ => false
  end.

Definition EADDRINUSE : Z := 98.
Definition EACCES : Z := 13.

(** What a statement does: it completes with a value, raises, or never
    comes back (the serve loop when nothing stops it). *)
Inductive result (A : Type) : Type :=
| Ok (a : A)
| Raise (e : exn)
| Diverge.
Arguments Ok {A} a.
Arguments Raise {A} e.
Arguments Diverge {A}.

(** What the operating system sees of the process. *)
Inductive status : Type :=
| Running
| Exited (code : Z).

End Py.
Import Py.

(** ** The world outside the script *)

(** HTTP requests and responses, as far as the file handler is concerned. *)
Inductive http_method : Type := GET | HEAD | OtherMethod (name : string).

Record request : Type := Request { method : http_method; path : string }.
Record response : Type := Response { code : Z; body : list byte }.

(** A node of the file system. *)
Inductive node : Type :=
| File (content : list byte)
| Directory (children : list string).

(** The library operations the script enters, with their arguments. *)
Inductive call : Type :=
| os_path_abspath_ (p : string)
| os_path_dirname_ (p : string)
| os_chdir_ (p : string)
| print_ (s : string)
| TCPServer_ (host : string) (port : Z)
| serve_forever_
| server_close_.

Definition call_eqb (a b : call) : bool :=
  match a, b with
  | os_path_abspath_ x, os_path_abspath_ y => String.eqb x y
  | os_path_dirname_ x, os_path_dirname_ y => String.eqb x y
  | os_chdir_ x, os_chdir_ y => String.eqb x y
  | print_ x, print_ y => String.eqb x y
  | TCPServer_ h p, TCPServer_ h' p' => String.eqb h h' && Z.eqb p p'
  | serve_forever_, serve_forever_ => true
  | server_close_, server_close_ => true
  | _, _ => false
  end.

(** Everything the script does not decide.  [args] and [environ] are the
    command-line arguments after the script name and the environment
    variables; [abspath] and [dirname] are [os.path.abspath] (which reads
    the current directory) and [os.path.dirname]; [fault] says which
    library operation raises and what; [incoming] are the requests that
    arrive while the serve loop runs. *)
Record world : Type := World {
  __file__ : string;
  args : list string;
  environ : list (string * string);
  initial_cwd : string;
  abspath : string -> string -> string;
  dirname : string -> string;
  fs : string -> option node;
  fault : call -> option exn;
  incoming : list request
}.

(** ** The process *)

(** What can be observed of a run, in the order it happens. *)
Inductive event : Type :=
| Invoke (c : call)
| Stdout (text : string)
| Stderr (text : string)
| Served (directory : string) (rq : request) (rs : response).

Record process : Type := Process {
  cwd : string;
  listening : option (string * Z);
  trace : list event
}.

Definition boot (w : world) : process :=
  {| cwd := initial_cwd w; listening := None; trace := [] |}.

Definition log (e : event) (p : process) : process :=
  {| cwd := cwd p; listening := listening p; trace := trace p ++ [e] |}.

Definition set_cwd (d : string) (p : process) : process :=
  {| cwd := d; listening := listening p; trace := trace p |}.

Definition set_listening (l : option (string * Z)) (p : process) : process :=
  {| cwd := cwd p; listening := l; trace := trace p |}.

(** ** The monad of statements *)

Definition M (A : Type) : Type := process -> result A * process.

Definition ret {A} (a : A) : M A := fun p => (Ok a, p).

Definition bind {A B} (m : M A) (k : A -> M B) : M B :=
  fun p =>
    match m p with
    | (Ok a, p') => k a p'
    | (Raise e, p') => (Raise e, p')
    | (Diverge, p') => (Diverge, p')
    end.

Definition raise {A} (e : exn) : M A := fun p => (Raise e, p).

Declare Scope py_scope.
Delimit Scope py_scope with py.
Notation "x <- m ;; k" := (bind m (fun x => k))
  (at level 100, m at next level, right associativity) : py_scope.
Notation "m ;; k" := (bind m (fun _ => k))
  (at level 100, right associativity) : py_scope.

(** [try: body except cls: handler]: the handler runs when the body raises
    an exception the clause matches; anything else goes on propagating. *)
Definition try_except {A} (body : M A) (clause : exn -> bool) (handler : M A) : M A :=
  fun p =>
    match body p with
    | (Raise e, p') => if clause e then handler p' else (Raise e, p')
    | r => r
    end.

(** [with ctor as x: body]: the context manager is built first (outside
    its own protection), then the body runs, then [exit_] runs whether the
    body completed or raised; an exception of the body is raised again
    after it. *)
Definition with_ {A B} (ctor : M A) (exit_ : A -> M unit) (body : A -> M B) : M B :=
  bind ctor (fun x p =>
    match body x p with
    | (Ok b, p') => bind (exit_ x) (fun _ => ret b) p'
    | (Raise e, p') => bind (exit_ x) (fun _ => raise e) p'
    | (Diverge, p') => (Diverge, p')
    end).

Definition nl : string := String (ascii_of_nat 10) EmptyString.
Definition dq : string := String (ascii_of_nat 34) EmptyString.

(** [str(n)] for an integer. *)
Definition str (n : Z) : string := NilEmpty.string_of_int (Z.to_int n).

Section Library.

Variable w : world.

(** Modelled from the spec: the standard library and the operating system
    are not part of the repository.  Every operation is entered (which the
    trace records), then either raises the fault the world has chosen for
    it or has its effect. *)
Definition extern {A} (c : call) (effect : process -> A * process) : M A :=
  fun p =>
    let p1 := log (Invoke c) p in
    match fault w c with
    | Some e => (Raise e, p1)
    | None => let (a, p2) := effect p1 in (Ok a, p2)
    end.

(** The four operations of [os] and the builtins that the script calls:
    the functions themselves are the world's. *)
Definition os_path_abspath (p : string) : M string :=
  extern (os_path_abspath_ p) (fun s => (abspath w (cwd s) p, s)).

Definition os_path_dirname (p : string) : M string :=
  extern (os_path_dirname_ p) (fun s => (dirname w p, s)).

Definition os_chdir (d : string) : M unit :=
  extern (os_chdir_ d) (fun s => (tt, set_cwd d s)).

Definition print (s : string) : M unit :=
  extern (print_ s) (fun p => (tt, log (Stdout (s ++ nl)) p)).

Definition sys_exit (c : Z) : M unit := raise (SystemExit c).

(** Modelled from the spec: the handler's mapping of a URL path onto a file
    path relative to the serving root (the handler is the standard
    library's, not the repository's). *)
Definition translate_path (root url : string) : string := root ++ url.

(** Modelled from the spec: the generated directory listing, an HTML body
    with a hyperlink to each immediate child (standard library). *)
Definition list_directory (children : list string) : list byte :=
  list_byte_of_string
    (fold_right
       (fun c acc => "<li><a href=" ++ dq ++ c ++ dq ++ ">" ++ c ++ "</a></li>" ++ nl ++ acc)
       EmptyString children).

(** Modelled from the spec: [http.server.SimpleHTTPRequestHandler] is the
    standard library's, not the repository's.  Section 4.1: a GET or HEAD
    request has its URL path mapped onto a file path relative to the
    serving root; a regular file is answered with status 200 and its
    contents, a directory with a generated listing, anything else with
    status 404.  The serving root is the directory the process is in when
    the request is handled. *)
Definition SimpleHTTPRequestHandler (directory : string) (rq : request) : response :=
  match method rq with
  | OtherMethod _ => {| code := 501; body := [] |}
  | m =>
    match fs w (translate_path directory (path rq)) with
    | Some (File content) =>
        {| code := 200; body := match m with GET => content | _ => [] end |}
    | Some (Directory children) =>
        {| code := 200; body := match m with GET => list_directory children | _ => [] end |}
    | None => {| code := 404; body := [] |}
    end
  end.

(** Modelled from the spec: the server object of [socketserver.TCPServer]
    (standard library): its address and its request handler. *)
Record server : Type := Server {
  server_address : string * Z;
  RequestHandlerClass : string -> request -> response
}.

(** Modelled from the spec: the constructor of [socketserver.TCPServer]
    binds a listener to its address, or raises (port in use, permission
    denied). *)
Definition TCPServer (address : string * Z)
    (handler : string -> request -> response) : M server :=
  extern (TCPServer_ (fst address) (snd address))
    (fun p => ({| server_address := address; RequestHandlerClass := handler |},
               set_listening (Some address) p)).

(** Modelled from the spec: one request, answered by a fresh handler that
    serves from the directory the process is in (standard library). *)
Definition handle_request (httpd : server) (p : process) (rq : request) : process :=
  log (Served (cwd p) rq (RequestHandlerClass httpd (cwd p) rq)) p.

(** Modelled from the spec: [serve_forever] (standard library) answers the
    requests that arrive until something raises inside it, and otherwise
    never returns. *)
Definition serve_forever (httpd : server) : M unit :=
  fun p =>
    let p1 := log (Invoke serve_forever_) p in
    let p2 := fold_left (handle_request httpd) (incoming w) p1 in
    match fault w serve_forever_ with
    | Some e => (Raise e, p2)
    | None => (Diverge, p2)
    end.

(** Modelled from the spec: leaving the [with] block closes the listening
    socket (standard library). *)
Definition server_close (httpd : server) : M unit :=
  extern server_close_ (fun p => (tt, set_listening None p)).

(** ** The script *)

(** Line 16. *)
Definition PORT : Z := 8000.

(** Line 18. *)
Definition Handler : string -> request -> response := SimpleHTTPRequestHandler.

(** The clause [except KeyboardInterrupt] of line 27. *)
Definition is_KeyboardInterrupt (e : exn) : bool :=
  match e with KeyboardInterrupt => true | _ => false end.

(** The statements of the script in their order: lines 13 and 14 resolve
    the directory of the script and change to it, lines 20 to 22 print,
    lines 24 to 26 create the server and serve inside [try], lines 27 to 29
    handle the interrupt. *)
Definition main : M unit :=
  (abs <- os_path_abspath (__file__ w) ;;
   web_dir <- os_path_dirname abs ;;
   os_chdir web_dir ;;
   print ("Serving MADOLA web app from: " ++ web_dir) ;;
   print ("Open your browser to: http://localhost:" ++ str PORT) ;;
   print "Press Ctrl+C to stop the server" ;;
   try_except
     (with_ (TCPServer ("", PORT) Handler) server_close
        (fun httpd => serve_forever httpd))
     is_KeyboardInterrupt
     (print (nl ++ "Server stopped.") ;;
      sys_exit 0))%py.

(** ** The interpreter around the script *)

(** Modelled from the spec: the diagnostic trace the runtime prints for an
    exception nothing caught (the runtime is not the repository's). *)
Definition exn_name (e : exn) : string :=
  match e with
  | KeyboardInterrupt => "KeyboardInterrupt"
  | SystemExit c => "SystemExit: " ++ str c
  | OSError n => "OSError: [Errno " ++ str n ++ "]"
  | Exception cls => cls
  end.

(** Modelled from the spec: see [exn_name]. *)
Definition traceback (e : exn) : string :=
  "Traceback (most recent call last):" ++ nl ++ exn_name e ++ nl.

(** Modelled from the spec: the abnormal-termination code of the runtime,
    1 for an unhandled exception and that of the signal for an unhandled
    interrupt. *)
Definition abnormal_code (e : exn) : Z :=
  match e with KeyboardInterrupt => 130 | _ => 1 end.

(** Modelled from the spec: the runtime's treatment of what leaves the
    script.  [SystemExit] ends the process with its code and no trace; any
    other exception is reported on standard error and ends the process with
    the abnormal-termination code; the end of the script is exit code 0;
    a serve loop that nothing stops leaves the process running. *)
Definition python : status * process :=
  match main (boot w) with
  | (Ok _, p) => (Exited 0, p)
  | (Raise (SystemExit c), p) => (Exited c, p)
  | (Raise e, p) => (Exited (abnormal_code e), log (Stderr (traceback e)) p)
  | (Diverge, p) => (Running, p)
  end.

End Library.

(** ** Reading a run *)

Definition exit_status (w : world) : status := fst (python w).
Definition final (w : world) : process := snd (python w).
Definition events (w : world) : list event := trace (final w).

(** The directory of the launch script, as the two library functions of the
    script's line 13 compute it in the directory the process starts in. *)
Definition script_dir (w : world) : string :=
  dirname w (abspath w (initial_cwd w) (__file__ w)).

(** The lines of the script's three startup messages and of its notice. *)
Definition root_line (d : string) : string := "Serving MADOLA web app from: " ++ d ++ nl.
Definition url_line (port : Z) : string :=
  "Open your browser to: http://localhost:" ++ str port ++ nl.
Definition hint_line : string := "Press Ctrl+C to stop the server" ++ nl.
Definition notice : string := nl ++ "Server stopped." ++ nl.

Fixpoint stdout_of (t : list event) : list string :=
  match t with
  | [] => []
  | Stdout s :: t' => s :: stdout_of t'
  | _ :: t' => stdout_of t'
  end.

Fixpoint stderr_of (t : list event) : list string :=
  match t with
  | [] => []
  | Stderr s :: t' => s :: stderr_of t'
  | _ :: t' => stderr_of t'
  end.

(** The events before, and after, the first one that satisfies [P]. *)
Fixpoint before (P : event -> bool) (t : list event) : list event :=
  match t with
  | [] => []
  | e :: t' => if P e then [] else e :: before P t'
  end.

Fixpoint after (P : event -> bool) (t : list event) : list event :=
  match t with
  | [] => []
  | e :: t' => if P e then t' else after P t'
  end.

Definition is_abspath (e : event) : bool :=
  match e with Invoke (os_path_abspath_ _) => true | _ => false end.

Definition is_dirname (e : event) : bool :=
  match e with Invoke (os_path_dirname_ _) => true | _ => false end.

Definition is_chdir (e : event) : bool :=
  match e with Invoke (os_chdir_ _) => true | _ => false end.

Definition is_bind (e : event) : bool :=
  match e with Invoke (TCPServer_ _ _) => true | _ => false end.

Definition is_serve_loop (e : event) : bool :=
  match e with Invoke serve_forever_ => true | _ => false end.

Definition is_served (e : event) : bool :=
  match e with Served _ _ _ => true | _ => false end.

(** The events of the network: the listener is created, the serve loop is
    entered, a request is answered. *)
Definition network (e : event) : bool := is_bind e || is_serve_loop e || is_served e.

(** The serving root an event lets one observe, when it does. *)
Definition root_seen (e : event) : option string :=
  match e with
  | Invoke (os_chdir_ d) => Some d
  | Served d _ _ => Some d
  | _ => None
  end.

(** The same world started with other command-line arguments and another
    environment. *)
Definition configure (a : list string) (v : list (string * string)) (w : world) : world :=
  {| __file__ := __file__ w; args := a; environ := v; initial_cwd := initial_cwd w;
     abspath := abspath w; dirname := dirname w; fs := fs w; fault := fault w;
     incoming := incoming w |}.

Definition is_close (e : event) : bool :=
  match e with Invoke server_close_ => true | _ => false end.

(** The operations of lines 13 to 22, which the script enters before it
    creates its listener. *)
Definition startup_calls (w : world) : list call :=
  [ os_path_abspath_ (__file__ w);
    os_path_dirname_ (abspath w (initial_cwd w) (__file__ w));
    os_chdir_ (script_dir w);
    print_ ("Serving MADOLA web app from: " ++ script_dir w);
    print_ ("Open your browser to: http://localhost:" ++ str PORT);
    print_ "Press Ctrl+C to stop the server" ].

(** ** A concrete platform and a few worlds

    A simplified POSIX [os.path] and some situations the script can be
    started in; the theorems below are instantiated on them. *)

Module Scenario.

Definition posix_abspath (cwd p : string) : string :=
  if String.prefix "/" p then p else cwd ++ "/" ++ p.

Fixpoint strip_last (s : string) : option string :=
  match s with
  | EmptyString => None
  | String c r =>
      match strip_last r with
      | Some d => Some (String c d)
      | None => if Ascii.eqb c "/" then Some EmptyString else None
      end
  end.

Definition posix_dirname (p : string) : string :=
  match strip_last p with
  | Some EmptyString => "/"
  | Some d => d
  | None => EmptyString
  end.

Definition index_html : list byte := list_byte_of_string "<html>MADOLA</html>".

Definition disk (p : string) : option node :=
  if String.eqb p "/srv/madola/web" then Some (Directory ["index.html"; "serve.py"])
  else if String.eqb p "/srv/madola/web/index.html" then Some (File index_html)
  else if String.eqb p "/srv/madola/web/serve.py" then Some (File [])
  else None.

Definition no_fault (c : call) : option exn := None.

Definition only (c : call) (e : exn) (c' : call) : option exn :=
  if call_eqb c c' then Some e else None.

Definition get_index : request := {| method := GET; path := "/index.html" |}.

Definition started (faults : call -> option exn) : world :=
  {| __file__ := "web/serve.py";
     args := [];
     environ := [("HOME", "/root")];
     initial_cwd := "/srv/madola";
     abspath := posix_abspath;
     dirname := posix_dirname;
     fs := disk;
     fault := faults;
     incoming := [get_index] |}.

(** The server answers one request and keeps running. *)
Definition serving : world := started no_fault.

(** The user presses Ctrl+C while the server runs. *)
Definition interrupted : world := started (only serve_forever_ KeyboardInterrupt).

(** Another process already listens on the port. *)
Definition port_in_use : world :=
  started (only (TCPServer_ "" 8000) (OSError EADDRINUSE)).

(** The user may not bind the port. *)
Definition bind_denied : world :=
  started (only (TCPServer_ "" 8000) (OSError EACCES)).

(** One more fault on top of others. *)
Definition also (c : call) (e : exn) (faults : call -> option exn) (c' : call) : option exn :=
  if call_eqb c c' then Some e else faults c'.

(** The user presses Ctrl+C while the listener is being created. *)
Definition interrupted_at_bind : world :=
  started (only (TCPServer_ "" 8000) KeyboardInterrupt).

(** The user presses Ctrl+C while the script changes directory. *)
Definition interrupted_at_chdir : world :=
  started (only (os_chdir_ "/srv/madola/web") KeyboardInterrupt).

(** The serve loop runs out of file descriptors. *)
Definition EMFILE : Z := 24.
Definition crashed_in_loop : world := started (only serve_forever_ (OSError EMFILE)).

(** The user presses Ctrl+C while the server runs, and again while the
    notice is being printed. *)
Definition interrupted_twice : world :=
  started (also (print_ (nl ++ "Server stopped.")) KeyboardInterrupt
             (only serve_forever_ KeyboardInterrupt)).

End Scenario.


(** ** Reasoning about runs *)

Local Open Scope list_scope.

Arguments String.append : simpl never.
Arguments traceback : simpl never.
Arguments str : simpl never.
Arguments Handler : simpl never.

(** The serve loop only appends one [Served] event per request, each
    answered from the directory the process is in. *)
Lemma serve_requests (httpd : server) (rqs : list request) (p : process) :
  fold_left (handle_request httpd) rqs p =
  {| cwd := cwd p; listening := listening p;
     trace := trace p ++
       map (fun rq => Served (cwd p) rq (RequestHandlerClass httpd (cwd p) rq)) rqs |}.
Proof.
  revert p. induction rqs as [|rq rqs IH]; intros p.
  - simpl. rewrite app_nil_r. destruct p; reflexivity.
  - simpl. rewrite IH. unfold handle_request, log. simpl.
    rewrite <- app_assoc. reflexivity.
Qed.

Lemma stdout_of_app (a b : list event) :
  stdout_of (a ++ b) = stdout_of a ++ stdout_of b.
Proof.
  induction a as [|[c|s|s|d rq rs] a IH]; simpl; rewrite ?IH; reflexivity.
Qed.

Lemma stderr_of_app (a b : list event) :
  stderr_of (a ++ b) = stderr_of a ++ stderr_of b.
Proof.
  induction a as [|[c|s|s|d rq rs] a IH]; simpl; rewrite ?IH; reflexivity.
Qed.

Section ServeLoopEvents.

Variable d : string.
Variable g : request -> response.

(** The serve loop writes nothing to the standard streams. *)
Lemma stdout_of_served (rqs : list request) :
  stdout_of (map (fun rq => Served d rq (g rq)) rqs) = [].
Proof. induction rqs as [|rq rqs IH]; simpl; [reflexivity|exact IH]. Qed.

Lemma stderr_of_served (rqs : list request) :
  stderr_of (map (fun rq => Served d rq (g rq)) rqs) = [].
Proof. induction rqs as [|rq rqs IH]; simpl; [reflexivity|exact IH]. Qed.

(** A predicate that holds of no [Served] event selects nothing from the
    events of the serve loop. *)
Lemma filter_served (P : event -> bool) (rqs : list request) :
  (forall e, is_served e = true -> P e = false) ->
  filter P (map (fun rq => Served d rq (g rq)) rqs) = [].
Proof.
  intros HP. induction rqs as [|rq rqs IH]; simpl; [reflexivity|].
  rewrite (HP (Served d rq (g rq)) eq_refl). exact IH.
Qed.

End ServeLoopEvents.

Lemma served_not_chdir e : is_served e = true -> is_chdir e = false.
Proof. destruct e as [c|s|s|d rq rs]; simpl; [discriminate| | |]; reflexivity. Qed.

Lemma served_not_abspath e : is_served e = true -> is_abspath e = false.
Proof. destruct e as [c|s|s|d rq rs]; simpl; [discriminate| | |]; reflexivity. Qed.

Lemma served_not_dirname e : is_served e = true -> is_dirname e = false.
Proof. destruct e as [c|s|s|d rq rs]; simpl; [discriminate| | |]; reflexivity. Qed.

(** The handler answers a GET for a file under its root with the file. *)
Lemma handler_serves_file w root f content :
  fs w (root ++ "/" ++ f)%string = Some (File content) ->
  Handler w root {| method := GET; path := ("/" ++ f)%string |} =
  {| code := 200; body := content |}.
Proof.
  intros Hf. unfold Handler, SimpleHTTPRequestHandler, translate_path. cbn.
  rewrite Hf. reflexivity.
Qed.

(** Symbolic execution of the script: unfold it down to the faults the world
    chooses, then follow every choice. *)
Ltac unfold_script :=
  unfold events, final, exit_status, python, main, try_except, with_, bind, ret, raise,
    sys_exit, os_path_abspath, os_path_dirname, os_chdir, print, TCPServer, server_close,
    serve_forever, extern, boot, script_dir.

Ltac step_fault :=
  match goal with
  | |- context [fault ?w ?c] => destruct (fault w c) as [[| | |]|] eqn:?
  end.

Ltac run_script :=
  unfold_script; cbn; repeat (first [rewrite serve_requests | step_fault]; cbn).

(** Membership in a trace that has been executed: go through the concrete
    events, and through the events of the serve loop. *)
Ltac in_trace H :=
  repeat match type of H with
  | _ \/ _ => destruct H as [H|H]
  | In _ (_ ++ _) => apply in_app_or in H
  | In _ (map _ _) => apply in_map_iff in H; destruct H as (? & H & ?)
  | In _ (_ :: _) => destruct H as [H|H]
  | In _ [] => destruct H
  | False => destruct H
  | _ = _ => first [discriminate H | injection H as H; subst]
  end.

Ltac here := repeat first [left; reflexivity | right].

Ltac find_served :=
  repeat first
    [ apply in_map_iff; eexists; split; [|eassumption]
    | apply in_or_app; left
    | right ].

(** Two facts about the fault of one call are one fact. *)
Ltac same_fault :=
  repeat match goal with
  | H1 : fault ?w ?c = Some _, H2 : fault ?w ?c = _ |- _ =>
      rewrite H1 in H2; first [discriminate H2 | injection H2 as H2; subst]
  end.

(** ** Four runs *)

Example serving_runs :
  exit_status Scenario.serving = Running /\
  cwd (final Scenario.serving) = "/srv/madola/web"%string /\
  listening (final Scenario.serving) = Some (""%string, 8000).
Proof. repeat split; reflexivity. Qed.

Example serving_output :
  stdout_of (events Scenario.serving) =
  [ ("Serving MADOLA web app from: /srv/madola/web" ++ nl)%string;
    ("Open your browser to: http://localhost:8000" ++ nl)%string;
    ("Press Ctrl+C to stop the server" ++ nl)%string ].
Proof. reflexivity. Qed.

Example interrupted_exits_0 :
  exit_status Scenario.interrupted = Exited 0 /\
  listening (final Scenario.interrupted) = None.
Proof. split; reflexivity. Qed.

Example port_in_use_exits_1 :
  exit_status Scenario.port_in_use = Exited 1 /\
  stderr_of (events Scenario.port_in_use) = [traceback (OSError EADDRINUSE)].
Proof. split; reflexivity. Qed.

Example bind_denied_exits_1 :
  exit_status Scenario.bind_denied = Exited 1 /\
  stdout_of (events Scenario.bind_denied) =
  [root_line "/srv/madola/web"; url_line 8000; hint_line].
Proof. split; reflexivity. Qed.

(** ** The claims *)

(** C1.  While the server runs, a GET request for [/f], where [f] is a file
    under the directory of the launch script, is answered with status 200
    and a body that is the content of [f], byte for byte; and no answer to
    such a request is anything else.  (The handler is the standard
    library's and is modelled from the specification; that it serves the
    script's directory is the script's doing.) *)
Theorem get_of_existing_file_returns_its_bytes w f content :
  fs w (script_dir w ++ "/" ++ f)%string = Some (File content) ->
  In (Invoke serve_forever_) (events w) ->
  In {| method := GET; path := ("/" ++ f)%string |} (incoming w) ->
  In (Served (script_dir w) {| method := GET; path := ("/" ++ f)%string |}
        {| code := 200; body := content |}) (events w) /\
  forall d rs,
    In (Served d {| method := GET; path := ("/" ++ f)%string |} rs) (events w) ->
    rs = {| code := 200; body := content |}.
Proof.
  intros Hf Hs Hrq; revert Hs.
  run_script; intros Hs.
  all: try (exfalso; in_trace Hs; fail).
  all: unfold script_dir in Hf; split;
    [ find_served; rewrite (handler_serves_file _ _ _ _ Hf); reflexivity
    | intros d rs H; in_trace H; subst; apply handler_serves_file, Hf ].
Qed.

Lemma get_of_existing_file_returns_its_bytes_witness :
  In (Served "/srv/madola/web" Scenario.get_index
        {| code := 200; body := Scenario.index_html |}) (events Scenario.serving) /\
  forall d rs,
    In (Served d Scenario.get_index rs) (events Scenario.serving) ->
    rs = {| code := 200; body := Scenario.index_html |}.
Proof.
  apply (get_of_existing_file_returns_its_bytes Scenario.serving
           "index.html" Scenario.index_html).
  - reflexivity.
  - vm_compute; here.
  - left; reflexivity.
Defined.

(** C2.  The run starts by resolving the path of the launch script, and in
    every run that gets as far as the network (the listener is created, the
    serve loop entered or a request answered) the process has by then
    changed its working directory to the directory of the script, which is
    the directory every request is served from. *)
Theorem chdir_to_script_dir_before_serving w :
  existsb network (events w) = true ->
  hd_error (events w) = Some (Invoke (os_path_abspath_ (__file__ w))) /\
  In (Invoke (os_chdir_ (script_dir w))) (before network (events w)) /\
  forall d rq rs, In (Served d rq rs) (events w) -> d = script_dir w.
Proof.
  run_script; intros Hn; try discriminate Hn.
  all: split; [reflexivity|split; [here|]].
  all: intros d rq rs H; in_trace H; reflexivity.
Qed.

Lemma chdir_to_script_dir_before_serving_witness :
  hd_error (events Scenario.serving) = Some (Invoke (os_path_abspath_ "web/serve.py")) /\
  In (Invoke (os_chdir_ "/srv/madola/web")) (before network (events Scenario.serving)) /\
  forall d rq rs, In (Served d rq rs) (events Scenario.serving) -> d = "/srv/madola/web"%string.
Proof.
  apply (chdir_to_script_dir_before_serving Scenario.serving). reflexivity.
Defined.

(** C3.  The port is the constant 8000, and nothing of a run depends on the
    command-line arguments or on the environment: started with other
    arguments and another environment, the process does the same, serves
    the same root and binds the same port. *)
Theorem port_and_root_are_not_configurable w a v :
  PORT = 8000 /\
  python (configure a v w) = python w /\
  script_dir (configure a v w) = script_dir w /\
  forall h p, In (Invoke (TCPServer_ h p)) (events (configure a v w)) -> p = 8000.
Proof.
  split; [reflexivity|split; [reflexivity|split; [reflexivity|]]].
  change (events (configure a v w)) with (events w).
  run_script; intros h p H; in_trace H; reflexivity.
Qed.

(** C4.  When the serve loop is interrupted by the user (and neither closing
    the socket nor printing fails in turn), the program prints exactly one
    notice, writes no trace to standard error and exits with code 0. *)
Theorem interrupt_prints_notice_and_exits_0 w :
  In (Invoke serve_forever_) (events w) ->
  fault w serve_forever_ = Some KeyboardInterrupt ->
  fault w server_close_ = None ->
  fault w (print_ (nl ++ "Server stopped."))%string = None ->
  exit_status w = Exited 0 /\
  stdout_of (after is_serve_loop (events w)) = [notice] /\
  stderr_of (events w) = [].
Proof.
  intros Hs Hi Hc Hp; revert Hs.
  run_script; intros Hs; try congruence.
  all: try (exfalso; in_trace Hs; fail).
  all: rewrite ?stdout_of_app, ?stderr_of_app, ?stdout_of_served, ?stderr_of_served; cbn.
  all: repeat split; reflexivity.
Qed.

Lemma interrupt_prints_notice_and_exits_0_witness :
  exit_status Scenario.interrupted = Exited 0 /\
  stdout_of (after is_serve_loop (events Scenario.interrupted)) = [notice] /\
  stderr_of (events Scenario.interrupted) = [].
Proof.
  apply (interrupt_prints_notice_and_exits_0 Scenario.interrupted).
  - vm_compute; here.
  - reflexivity.
  - reflexivity.
  - reflexivity.
Defined.

(** C5.  A fault at startup that is an error (not the user's interrupt): the
    operation the script has entered raises it before the server ever runs.
    Nothing catches it: the notice of the interrupt handler is not printed,
    the runtime writes the trace of that very exception to standard error,
    and the process ends with a status that is not 0. *)
Theorem startup_fault_is_not_caught w c e :
  In (Invoke c) (events w) ->
  fault w c = Some e ->
  is_error e = true ->
  ~ In (Invoke serve_forever_) (events w) ->
  (exists n, exit_status w = Exited n /\ n <> 0) /\
  stderr_of (events w) = [traceback e] /\
  ~ In notice (stdout_of (events w)).
Proof.
  intros Hc Hf He Hs; revert Hc Hs.
  run_script; intros Hc Hs.
  all: try (exfalso; apply Hs; here; fail).
  all: in_trace Hc.
  all: same_fault; try (cbn in He; discriminate He).
  all: split; [eexists; split; [reflexivity|lia]|split; [reflexivity|]].
  all: intros H; in_trace H; cbv in H; discriminate H.
Qed.

Lemma startup_fault_is_not_caught_witness :
  (exists n, exit_status Scenario.port_in_use = Exited n /\ n <> 0) /\
  stderr_of (events Scenario.port_in_use) = [traceback (OSError EADDRINUSE)] /\
  ~ In notice (stdout_of (events Scenario.port_in_use)).
Proof.
  apply (startup_fault_is_not_caught Scenario.port_in_use
           (TCPServer_ "" 8000) (OSError EADDRINUSE)).
  - vm_compute; here.
  - reflexivity.
  - reflexivity.
  - vm_compute; intros H; in_trace H.
Defined.

(** C6.  In a run that creates its listener on port [p] and enters the serve
    loop, what standard output holds when the loop is entered is the line
    with the serving root, then the line with the URL
    [http://localhost:p], then the hint on how to stop the server. *)
Theorem startup_messages_before_serve_loop w h p :
  In (Invoke (TCPServer_ h p)) (events w) ->
  In (Invoke serve_forever_) (events w) ->
  stdout_of (before is_serve_loop (events w)) =
  [root_line (script_dir w); url_line p; hint_line].
Proof.
  run_script; intros Hb Hs.
  all: try (exfalso; in_trace Hs; fail).
  all: in_trace Hb; reflexivity.
Qed.

Lemma startup_messages_before_serve_loop_witness :
  stdout_of (before is_serve_loop (events Scenario.serving)) =
  [root_line "/srv/madola/web"; url_line 8000; hint_line].
Proof.
  apply (startup_messages_before_serve_loop Scenario.serving ""%string 8000);
    vm_compute; here.
Defined.

(** C7.  In every run whose startup operations (lines 13 to 22) do not
    raise, the script creates a listener, and the address it gives is the
    empty host, which stands for every interface, with the port [PORT]; no
    listener of the run has another address.  When the creation does not
    raise either, the serve loop is entered on that listener, and as long as
    nothing ends the loop the process runs and listens on exactly that
    address. *)
Theorem listener_on_all_interfaces w :
  (forall c, In c (startup_calls w) -> fault w c = None) ->
  In (Invoke (TCPServer_ "" PORT)) (events w) /\
  (forall h p, In (Invoke (TCPServer_ h p)) (events w) -> h = ""%string /\ p = PORT) /\
  (fault w (TCPServer_ "" PORT) = None ->
   In (Invoke serve_forever_) (events w) /\
   (fault w serve_forever_ = None ->
    exit_status w = Running /\ listening (final w) = Some (""%string, PORT))).
Proof.
  intros H.
  pose proof (H _ (or_introl eq_refl)) as H1.
  pose proof (H _ (or_intror (or_introl eq_refl))) as H2.
  pose proof (H _ (or_intror (or_intror (or_introl eq_refl)))) as H3.
  pose proof (H _ (or_intror (or_intror (or_intror (or_introl eq_refl))))) as H4.
  pose proof (H _ (or_intror (or_intror (or_intror (or_intror (or_introl eq_refl)))))) as H5.
  pose proof (H _ (or_intror (or_intror (or_intror (or_intror (or_intror
                     (or_introl eq_refl))))))) as H6.
  clear H. unfold script_dir in H3, H4.
  run_script; try congruence.
  all: split; [here|split].
  all: try (intros h p Hb; in_trace Hb; split; reflexivity).
  all: intros Hk; try discriminate Hk.
  all: split; [here|].
  all: intros Hl; try discriminate Hl.
  all: split; reflexivity.
Qed.

Lemma listener_on_all_interfaces_witness :
  In (Invoke (TCPServer_ "" 8000)) (events Scenario.serving) /\
  In (Invoke serve_forever_) (events Scenario.serving) /\
  exit_status Scenario.serving = Running /\
  listening (final Scenario.serving) = Some (""%string, 8000).
Proof.
  destruct (listener_on_all_interfaces Scenario.serving (fun c _ => eq_refl))
    as (Hbind & _ & Hrun).
  destruct (Hrun eq_refl) as (Hloop & Hlisten).
  destruct (Hlisten eq_refl) as (Hstatus & Haddress).
  exact (conj Hbind (conj Hloop (conj Hstatus Haddress))).
Defined.

(** C8.  The path of the launch script is resolved once, first thing; the
    directory is taken of it at most once and the working directory changed
    at most once; and every event of the run that lets a serving root be
    observed (the change of directory, each answered request) shows the same
    one, the directory of the script. *)
Theorem root_is_resolved_once_and_never_changes w :
  filter is_abspath (events w) = [Invoke (os_path_abspath_ (__file__ w))] /\
  (List.length (filter is_dirname (events w)) <= 1)%nat /\
  (List.length (filter is_chdir (events w)) <= 1)%nat /\
  forall e d, In e (events w) -> root_seen e = Some d -> d = script_dir w.
Proof.
  run_script.
  all: rewrite ?filter_app; cbn;
       rewrite ?(filter_served _ _ _ _ served_not_chdir),
               ?(filter_served _ _ _ _ served_not_abspath),
               ?(filter_served _ _ _ _ served_not_dirname); cbn.
  all: split; [reflexivity|split; [lia|split; [lia|]]].
  all: intros e d H Hr; in_trace H; subst; cbn in Hr; congruence.
Qed.

(** C9.  In a run where creating the listener fails, the three startup
    lines were already on standard output when the creation was attempted,
    although the serve loop is never entered and the process never
    listens. *)
Theorem messages_are_printed_before_bind w h p e :
  In (Invoke (TCPServer_ h p)) (events w) ->
  fault w (TCPServer_ h p) = Some e ->
  stdout_of (before is_bind (events w)) =
    [root_line (script_dir w); url_line p; hint_line] /\
  (exists rest,
     stdout_of (events w) = root_line (script_dir w) :: url_line p :: hint_line :: rest) /\
  ~ In (Invoke serve_forever_) (events w) /\
  listening (final w) = None.
Proof.
  intros Hb Hf; revert Hb.
  run_script; intros Hb.
  all: in_trace Hb; try congruence.
  all: split; [reflexivity|split; [eexists; reflexivity|split; [|reflexivity]]].
  all: intros H; in_trace H.
Qed.

Lemma messages_are_printed_before_bind_witness :
  stdout_of (before is_bind (events Scenario.port_in_use)) =
    [root_line "/srv/madola/web"; url_line 8000; hint_line] /\
  (exists rest,
     stdout_of (events Scenario.port_in_use) =
     root_line "/srv/madola/web" :: url_line 8000 :: hint_line :: rest) /\
  ~ In (Invoke serve_forever_) (events Scenario.port_in_use) /\
  listening (final Scenario.port_in_use) = None.
Proof.
  apply (messages_are_printed_before_bind Scenario.port_in_use
           ""%string 8000 (OSError EADDRINUSE)).
  - vm_compute; here.
  - reflexivity.
Defined.

(** C10.  In every run that attempts to create the listener, whether the
    attempt succeeds or fails, the working directory was changed to the
    directory of the script before the attempt; that is the only change of
    directory of the run, none follows the attempt, and the process ends (or
    goes on running) in that directory. *)
Theorem chdir_precedes_bind_and_is_never_undone w h p :
  In (Invoke (TCPServer_ h p)) (events w) ->
  In (Invoke (os_chdir_ (script_dir w))) (before is_bind (events w)) /\
  filter is_chdir (after is_bind (events w)) = [] /\
  filter is_chdir (events w) = [Invoke (os_chdir_ (script_dir w))] /\
  cwd (final w) = script_dir w.
Proof.
  run_script; intros Hb.
  all: in_trace Hb.
  all: split; [here|].
  all: rewrite ?filter_app; cbn;
       rewrite ?(filter_served _ _ _ _ served_not_chdir); cbn.
  all: repeat split; reflexivity.
Qed.

Lemma chdir_precedes_bind_and_is_never_undone_witness :
  In (Invoke (os_chdir_ "/srv/madola/web")) (before is_bind (events Scenario.port_in_use)) /\
  filter is_chdir (after is_bind (events Scenario.port_in_use)) = [] /\
  filter is_chdir (events Scenario.port_in_use) = [Invoke (os_chdir_ "/srv/madola/web")] /\
  cwd (final Scenario.port_in_use) = "/srv/madola/web"%string.
Proof.
  apply (chdir_precedes_bind_and_is_never_undone Scenario.port_in_use ""%string 8000).
  vm_compute; here.
Defined.

(** ** Further properties of the script *)

Lemma served_not_close e : is_served e = true -> is_close e = false.
Proof. destruct e as [c|s|s|d rq rs]; simpl; [discriminate| | |]; reflexivity. Qed.

Lemma served_not_bind e : is_served e = true -> is_bind e = false.
Proof. destruct e as [c|s|s|d rq rs]; simpl; [discriminate| | |]; reflexivity. Qed.

Lemma served_not_serve_loop e : is_served e = true -> is_serve_loop e = false.
Proof. destruct e as [c|s|s|d rq rs]; simpl; [discriminate| | |]; reflexivity. Qed.

(** The events of the serve loop are all answers, and are passed over by a
    search for anything else. *)
Lemma filter_is_served d g (rqs : list request) :
  filter is_served (map (fun rq => Served d rq (g rq)) rqs) =
  map (fun rq => Served d rq (g rq)) rqs.
Proof. induction rqs as [|rq rqs IH]; simpl; [reflexivity|rewrite IH; reflexivity]. Qed.

Lemma before_served d g (P : event -> bool) (rqs : list request) (t : list event) :
  (forall e, is_served e = true -> P e = false) ->
  before P (map (fun rq => Served d rq (g rq)) rqs ++ t) =
  map (fun rq => Served d rq (g rq)) rqs ++ before P t.
Proof.
  intros HP. induction rqs as [|rq rqs IH]; simpl; [reflexivity|].
  rewrite (HP (Served d rq (g rq)) eq_refl), IH. reflexivity.
Qed.

(** What is known of the fault of one call, put together. *)
Ltac merge_faults :=
  repeat match goal with
  | H : Some _ = None |- _ => discriminate H
  | H : None = Some _ |- _ => discriminate H
  | H : Some _ = Some _ |- _ => first [discriminate H | injection H as H; try subst]
  | H1 : fault ?w ?c = Some _, H2 : fault ?w ?c = _ |- _ =>
      lazymatch H1 with
      | H2 => fail
      | _ => rewrite H1 in H2
      end
  end.

(** X1.  The [try] of line 24 covers the creation of the listener: an
    interrupt raised while the listener is being created is handled like one
    in the serve loop.  The notice is printed and the process exits with
    code 0, although the serve loop was never entered and there is no server
    to close. *)
Theorem interrupt_during_bind_is_caught w :
  In (Invoke (TCPServer_ "" PORT)) (events w) ->
  fault w (TCPServer_ "" PORT) = Some KeyboardInterrupt ->
  fault w (print_ (nl ++ "Server stopped."))%string = None ->
  exit_status w = Exited 0 /\
  stdout_of (after is_bind (events w)) = [notice] /\
  stderr_of (events w) = [] /\
  ~ In (Invoke serve_forever_) (events w) /\
  ~ In (Invoke server_close_) (events w).
Proof.
  intros Hb Hi Hp; revert Hb.
  run_script; intros Hb; try congruence.
  all: try (exfalso; in_trace Hb; fail).
  all: repeat split; try reflexivity; intros H; in_trace H.
Qed.

Lemma interrupt_during_bind_is_caught_witness :
  exit_status Scenario.interrupted_at_bind = Exited 0 /\
  stdout_of (after is_bind (events Scenario.interrupted_at_bind)) = [notice] /\
  stderr_of (events Scenario.interrupted_at_bind) = [] /\
  ~ In (Invoke serve_forever_) (events Scenario.interrupted_at_bind) /\
  ~ In (Invoke server_close_) (events Scenario.interrupted_at_bind).
Proof.
  apply (interrupt_during_bind_is_caught Scenario.interrupted_at_bind).
  - vm_compute; here.
  - reflexivity.
  - reflexivity.
Defined.

(** X2.  Lines 13 to 22 stand before the [try]: an interrupt raised in any
    operation of a run that never gets to create the listener (resolving the
    path, changing directory, printing the startup lines) is not handled.
    No notice is printed, the runtime reports the interrupt on standard
    error and the exit status is not 0. *)
Theorem interrupt_before_try_is_not_caught w c :
  In (Invoke c) (events w) ->
  fault w c = Some KeyboardInterrupt ->
  ~ In (Invoke (TCPServer_ "" PORT)) (events w) ->
  (exists n, exit_status w = Exited n /\ n <> 0) /\
  stderr_of (events w) = [traceback KeyboardInterrupt] /\
  ~ In notice (stdout_of (events w)).
Proof.
  intros Hc Hf Hs; revert Hc Hs.
  run_script; intros Hc Hs.
  all: try (exfalso; apply Hs; here; fail).
  all: in_trace Hc.
  all: merge_faults.
  all: split; [eexists; split; [reflexivity|lia]|split; [reflexivity|]].
  all: intros H; in_trace H; cbv in H; discriminate H.
Qed.

Lemma interrupt_before_try_is_not_caught_witness :
  (exists n, exit_status Scenario.interrupted_at_chdir = Exited n /\ n <> 0) /\
  stderr_of (events Scenario.interrupted_at_chdir) = [traceback KeyboardInterrupt] /\
  ~ In notice (stdout_of (events Scenario.interrupted_at_chdir)).
Proof.
  apply (interrupt_before_try_is_not_caught Scenario.interrupted_at_chdir
           (os_chdir_ "/srv/madola/web")).
  - vm_compute; here.
  - reflexivity.
  - vm_compute; intros H; in_trace H.
Defined.

(** X3.  An error (not an interrupt) that ends the serve loop is not handled
    by the [except] clause, but the [with] block still closes the server:
    the socket is closed, nothing more is printed, the runtime reports the
    error and the exit status is not 0. *)
Theorem error_in_serve_loop_closes_and_crashes w e :
  In (Invoke serve_forever_) (events w) ->
  fault w serve_forever_ = Some e ->
  is_error e = true ->
  fault w server_close_ = None ->
  (exists n, exit_status w = Exited n /\ n <> 0) /\
  stderr_of (events w) = [traceback e] /\
  stdout_of (after is_serve_loop (events w)) = [] /\
  In (Invoke server_close_) (after is_serve_loop (events w)) /\
  listening (final w) = None.
Proof.
  intros Hs Hf He Hc; revert Hs.
  run_script; intros Hs; try congruence.
  all: try (exfalso; in_trace Hs; fail).
  all: merge_faults; try (cbn in He; discriminate He).
  all: rewrite ?stdout_of_app, ?stderr_of_app, ?stdout_of_served, ?stderr_of_served; cbn.
  all: split; [eexists; split; [reflexivity|lia]|].
  all: split; [reflexivity|split; [reflexivity|split; [|reflexivity]]].
  all: rewrite ?in_app_iff; cbn; tauto.
Qed.

Lemma error_in_serve_loop_closes_and_crashes_witness :
  (exists n, exit_status Scenario.crashed_in_loop = Exited n /\ n <> 0) /\
  stderr_of (events Scenario.crashed_in_loop) = [traceback (OSError Scenario.EMFILE)] /\
  stdout_of (after is_serve_loop (events Scenario.crashed_in_loop)) = [] /\
  In (Invoke server_close_) (after is_serve_loop (events Scenario.crashed_in_loop)) /\
  listening (final Scenario.crashed_in_loop) = None.
Proof.
  apply (error_in_serve_loop_closes_and_crashes Scenario.crashed_in_loop
           (OSError Scenario.EMFILE)).
  - vm_compute; here.
  - reflexivity.
  - reflexivity.
  - reflexivity.
Defined.

(** X4.  Whatever exception ends the serve loop, leaving the [with] block
    closes the server first: [server_close] is entered after the loop, and
    at that moment standard output still holds the three startup lines
    only (the notice, if any, comes after the socket is closed). *)
Theorem server_is_closed_before_anything_else w e :
  In (Invoke serve_forever_) (events w) ->
  fault w serve_forever_ = Some e ->
  In (Invoke server_close_) (after is_serve_loop (events w)) /\
  stdout_of (before is_close (events w)) =
    [root_line (script_dir w); url_line PORT; hint_line].
Proof.
  intros Hs Hf; revert Hs.
  run_script; intros Hs.
  all: try (exfalso; in_trace Hs; fail).
  all: merge_faults.
  all: split; [rewrite ?in_app_iff; cbn; tauto|].
  all: rewrite <- ?app_assoc, (before_served _ _ _ _ _ served_not_close); cbn.
  all: rewrite ?stdout_of_app, ?stdout_of_served; reflexivity.
Qed.

Lemma server_is_closed_before_anything_else_witness :
  In (Invoke server_close_) (after is_serve_loop (events Scenario.interrupted)) /\
  stdout_of (before is_close (events Scenario.interrupted)) =
    [root_line "/srv/madola/web"; url_line PORT; hint_line].
Proof.
  apply (server_is_closed_before_anything_else Scenario.interrupted KeyboardInterrupt).
  - vm_compute; here.
  - reflexivity.
Defined.

(** X5.  When no operation raises, the script never ends by itself: the
    process keeps running in the directory of the script, listening on every
    interface at [PORT]; it has printed the three startup lines and nothing
    else, had written nothing to standard error when it entered the serve
    loop, has answered the requests that arrived, each once and in order,
    and has not closed its server. *)
Theorem undisturbed_run_serves_forever w :
  (forall c, fault w c = None) ->
  exit_status w = Running /\
  cwd (final w) = script_dir w /\
  listening (final w) = Some (""%string, PORT) /\
  stdout_of (events w) = [root_line (script_dir w); url_line PORT; hint_line] /\
  stderr_of (before is_serve_loop (events w)) = [] /\
  filter is_served (events w) =
    map (fun rq => Served (script_dir w) rq (Handler w (script_dir w) rq)) (incoming w) /\
  ~ In (Invoke server_close_) (events w).
Proof.
  intros H. unfold_script. cbn.
  repeat (first [rewrite serve_requests | rewrite H]; cbn).
  rewrite ?stdout_of_served, filter_is_served.
  repeat split; try reflexivity.
  intros Hc; in_trace Hc.
Qed.

Lemma undisturbed_run_serves_forever_witness :
  exit_status Scenario.serving = Running /\
  cwd (final Scenario.serving) = "/srv/madola/web"%string /\
  listening (final Scenario.serving) = Some (""%string, PORT) /\
  stdout_of (events Scenario.serving) =
    [root_line "/srv/madola/web"; url_line PORT; hint_line] /\
  stderr_of (before is_serve_loop (events Scenario.serving)) = [] /\
  filter is_served (events Scenario.serving) =
    map (fun rq => Served "/srv/madola/web" rq
                     (Handler Scenario.serving "/srv/madola/web" rq))
        (incoming Scenario.serving) /\
  ~ In (Invoke server_close_) (events Scenario.serving).
Proof.
  apply (undisturbed_run_serves_forever Scenario.serving).
  intros c; reflexivity.
Defined.

(** X6.  Provided no library operation itself raises [SystemExit], the
    process exits with code 0 exactly when the notice has been printed, and
    then an interrupt was raised inside the [try] block: while the listener
    was created, in the serve loop, or while the server was closed.  There
    is no other way to a clean exit. *)
Theorem exit_0_only_through_the_handler w :
  (forall c x, fault w c <> Some (SystemExit x)) ->
  (exit_status w = Exited 0 <-> In notice (stdout_of (events w))) /\
  (exit_status w = Exited 0 ->
   fault w (TCPServer_ "" PORT) = Some KeyboardInterrupt \/
   fault w serve_forever_ = Some KeyboardInterrupt \/
   fault w server_close_ = Some KeyboardInterrupt).
Proof.
  intros H.
  run_script.
  all: try (exfalso; eapply H; eassumption).
  all: rewrite ?stdout_of_app, ?stdout_of_served; cbn.
  all: split; [split|]; intros H1; try discriminate H1; auto.
  all: try (exfalso; in_trace H1; cbv in H1; discriminate H1).
  all: try (rewrite ?in_app_iff; cbn; tauto).
Qed.

Lemma exit_0_only_through_the_handler_witness :
  (exit_status Scenario.interrupted = Exited 0 <->
   In notice (stdout_of (events Scenario.interrupted))) /\
  (exit_status Scenario.interrupted = Exited 0 ->
   fault Scenario.interrupted (TCPServer_ "" PORT) = Some KeyboardInterrupt \/
   fault Scenario.interrupted serve_forever_ = Some KeyboardInterrupt \/
   fault Scenario.interrupted server_close_ = Some KeyboardInterrupt).
Proof.
  apply (exit_0_only_through_the_handler Scenario.interrupted).
  intros c x. cbn. unfold Scenario.only.
  destruct (call_eqb serve_forever_ c); discriminate.
Defined.

(** X7.  The script does not retry: in every run the listener is created at
    most once, the serve loop entered at most once and the server closed at
    most once. *)
Theorem no_retry w :
  (List.length (filter is_bind (events w)) <= 1)%nat /\
  (List.length (filter is_serve_loop (events w)) <= 1)%nat /\
  (List.length (filter is_close (events w)) <= 1)%nat.
Proof.
  run_script.
  all: rewrite ?filter_app; cbn;
       rewrite ?(filter_served _ _ _ _ served_not_bind),
               ?(filter_served _ _ _ _ served_not_serve_loop),
               ?(filter_served _ _ _ _ served_not_close); cbn.
  all: repeat split; lia.
Qed.

(** X8.  The handler of lines 27 to 29 is not itself protected: when
    printing the notice raises (a second interrupt, a closed standard
    output), [sys.exit(0)] is never reached.  The notice is not on standard
    output, the runtime reports that exception and the exit status is not
    0. *)
Theorem fault_in_the_handler_is_not_caught w e :
  In (Invoke (print_ (nl ++ "Server stopped."))%string) (events w) ->
  fault w (print_ (nl ++ "Server stopped."))%string = Some e ->
  (forall x, e <> SystemExit x) ->
  (exists n, exit_status w = Exited n /\ n <> 0) /\
  stderr_of (events w) = [traceback e] /\
  ~ In notice (stdout_of (events w)).
Proof.
  intros Hc Hf He; revert Hc.
  run_script; intros Hc.
  all: merge_faults.
  all: try (exfalso; eapply He; reflexivity).
  all: try (exfalso; in_trace Hc; cbv in Hc; discriminate Hc).
  all: rewrite ?stdout_of_app, ?stderr_of_app, ?stdout_of_served, ?stderr_of_served; cbn.
  all: split; [eexists; split; [reflexivity|lia]|split; [reflexivity|]].
  all: intros H; in_trace H; cbv in H; discriminate H.
Qed.

Lemma fault_in_the_handler_is_not_caught_witness :
  (exists n, exit_status Scenario.interrupted_twice = Exited n /\ n <> 0) /\
  stderr_of (events Scenario.interrupted_twice) = [traceback KeyboardInterrupt] /\
  ~ In notice (stdout_of (events Scenario.interrupted_twice)).
Proof.
  apply (fault_in_the_handler_is_not_caught Scenario.interrupted_twice KeyboardInterrupt).
  - vm_compute; here.
  - reflexivity.
  - intros x H; discriminate H.
Defined.

(** X9.  Requests are answered inside the serve loop and nowhere else: a
    run that enters the loop answers the requests that arrive, each once and
    in order, with the handler of line 18 in the directory of the script; a
    run that does not enter it answers none. *)
Theorem requests_are_answered_only_in_the_serve_loop w :
  filter is_served (events w) =
  if existsb is_serve_loop (events w)
  then map (fun rq => Served (script_dir w) rq (Handler w (script_dir w) rq)) (incoming w)
  else [].
Proof.
  run_script.
  all: rewrite ?filter_app, ?filter_is_served; cbn; rewrite ?app_nil_r; reflexivity.
Qed.
